(** * The push service worker ([sw.js])

    The worker is one script.  When it is loaded it registers a listener
    for the ['push'] event; the listener reads the event's data, shows a
    notification and ties the pending display to the event's lifetime.

    The script calls four platform primitives that it does not define:
    [self.addEventListener], the JSON reading of the event's data
    ([event.data.json()]), [self.registration.showNotification] and
    [event.waitUntil].  The JSON reader is a section variable, so that
    every statement holds for whichever reader the platform has; the other
    three are modelled by what they leave behind in the worker's [World]:
    the listeners registered, the log of platform calls, the promises
    created, and the promises each event waits for. *)

From Stdlib Require Import Ascii String NArith.
From stdpp Require Import gmap strings list fin_maps.

#[local] Set Warnings "-register-all".

(** ** Values *)

(** What the JSON reader can return.  A number is kept as the decimal it
    was written as: the handler never computes with one, so its rounding
    to a binary64 is left out. *)
Inductive Json : Type :=
| JNull
| JBool (b : bool)
| JNumber (d : Decimal.decimal)
| JString (s : string)
| JArray (xs : list Json)
| JObject (props : gmap string Json).

(** What a local of the handler can hold: [undefined], or a JSON value. *)
Inductive JsValue : Type :=
| JUndefined
| JVal (v : Json).

Inductive JsError : Type :=
| SyntaxError
| TypeError.

(** A statement either completes or throws. *)
Inductive Completion (A : Type) : Type :=
| Normal (a : A)
| Throw (e : JsError).
Arguments Normal {A} a.
Arguments Throw {A} e.

(** ** The platform's objects *)

(** [event.data]: the bytes of the message (text is UTF-8 throughout). *)
Record PushMessageData : Type := { bytes : string }.

(** A push event; [data] is [null] when the message carries nothing. *)
Record PushEvent : Type := {
  event_id : nat;
  data : option PushMessageData
}.

(** The object literal handed to [showNotification]. *)
Record NotificationOptions : Type := {
  body : JsValue;
  icon : JsValue
}.

Definition Promise : Type := nat.

(** The function expressions of the script; it has one. *)
Inductive Callback : Type :=
| PushCallback.

Inductive Call : Type :=
| AddEventListener (type : string) (cb : Callback)
| ShowNotification (title : JsValue) (options : NotificationOptions)
    (p : Promise)
| WaitUntil (event : nat) (p : Promise).

Record World : Type := {
  listeners : list (string * Callback);
  promises : nat;
  extend_lifetime : list (nat * Promise);
  calls : list Call
}.

Definition initial_world : World :=
  {| listeners := []; promises := 0; extend_lifetime := []; calls := [] |}.

(** ** Statements: state passing, with exceptions *)

Definition M (A : Type) : Type := World -> Completion A * World.

Definition ret {A : Type} (a : A) : M A := fun w => (Normal a, w).

Definition throw {A : Type} (e : JsError) : M A := fun w => (Throw e, w).

Definition bind {A B : Type} (c : M A) (k : A -> M B) : M B :=
  fun w =>
    match c w with
    | (Normal a, w') => k a w'
    | (Throw e, w') => (Throw e, w')
    end.

Notation "x <- c ;; k" := (bind c (fun x => k))
  (at level 100, c at next level, right associativity).

Definition lift {A : Type} (c : Completion A) : M A := fun w => (c, w).

(** ** Platform primitives *)

(** [self.addEventListener(type, cb)].  The function expression is
    evaluated anew at each load, so the listener is never one the target
    already has and is appended. *)
Definition addEventListener (type : string) (cb : Callback) : M unit :=
  fun w =>
    (Normal tt,
     {| listeners := listeners w ++ [(type, cb)];
        promises := promises w;
        extend_lifetime := extend_lifetime w;
        calls := calls w ++ [AddEventListener type cb] |}).

(** [self.registration.showNotification(title, options)]: returns a new
    promise, which settles when the display does. *)
Definition showNotification (title : JsValue) (options : NotificationOptions)
  : M Promise :=
  fun w =>
    (Normal (promises w),
     {| listeners := listeners w;
        promises := S (promises w);
        extend_lifetime := extend_lifetime w;
        calls := calls w ++ [ShowNotification title options (promises w)] |}).

(** [event.waitUntil(p)]: adds [p] to the promises the event waits for. *)
Definition waitUntil (event : PushEvent) (p : Promise) : M unit :=
  fun w =>
    (Normal tt,
     {| listeners := listeners w;
        promises := promises w;
        extend_lifetime := extend_lifetime w ++ [(event_id event, p)];
        calls := calls w ++ [WaitUntil (event_id event) p] |}).

(** The platform keeps an event alive while one of the promises it waits
    for has not settled. *)
Definition event_alive (settled : Promise -> bool) (w : World) (event : nat)
  : bool :=
  existsb (fun ep => Nat.eqb (fst ep) event && negb (settled (snd ep)))
          (extend_lifetime w).

(** [v.k] for a name [k] that no built-in prototype defines, as is the case
    of [title] and [body]: the member of a parsed object, [undefined] when
    the object has none or [v] is a primitive or an array, and a
    [TypeError] on [null]. *)
Definition get_prop (v : Json) (k : string) : Completion JsValue :=
  match v with
  | JNull => Throw TypeError
  | JObject props =>
      match props !! k with
      | Some x => Normal (JVal x)
      | None => Normal JUndefined
      end
  | _ => Normal JUndefined
  end.

(** ** The script *)

Definition fallback_title : string := "默认标题".
Definition fallback_body : string := "没有消息内容".
Definition icon_path : string := "/icon.png".

Section Worker.

(** The platform's JSON reader; [None] is its [SyntaxError]. *)
Variable json_parse : string -> option Json.

(** [event.data.json()] *)
Definition json (d : PushMessageData) : M Json :=
  match json_parse (bytes d) with
  | Some v => ret v
  | None => throw SyntaxError
  end.

(** The listener: [function(event) { ... }]. *)
Definition push_handler (event : PushEvent) : M unit :=
  data <- match data event with
          | Some d => json d
          | None =>
              ret (JObject {[ "title" := JString fallback_title;
                              "body" := JString fallback_body ]})
          end ;;
  title <- lift (get_prop data "title") ;;
  body <- lift (get_prop data "body") ;;
  p <- showNotification title
         {| body := body; icon := JVal (JString icon_path) |} ;;
  waitUntil event p.

Definition call (cb : Callback) : PushEvent -> M unit :=
  match cb with
  | PushCallback => push_handler
  end.

(** The top level of the script, run once when the worker is loaded. *)
Definition sw_script : M unit :=
  addEventListener "push" PushCallback.

(** Delivery of an event of type [type]: each listener registered for it
    runs; what a listener throws is reported and does not stop the others. *)
Fixpoint dispatch_to (ls : list (string * Callback)) (type : string)
  (event : PushEvent) (w : World) : list (Completion unit) * World :=
  match ls with
  | [] => ([], w)
  | (t, cb) :: ls' =>
      if String.eqb t type then
        let '(c, w') := call cb event w in
        let '(cs, w'') := dispatch_to ls' type event w' in
        (c :: cs, w'')
      else dispatch_to ls' type event w
  end.

Definition dispatch (type : string) (event : PushEvent) (w : World)
  : list (Completion unit) * World :=
  dispatch_to (listeners w) type event w.

End Worker.

(** ** Reading a run *)

(** The calls made between two worlds of one run. *)
Definition emitted (w w' : World) : list Call :=
  drop (length (calls w)) (calls w').

Definition is_display (c : Call) : bool :=
  match c with
  | ShowNotification _ _ _ => true
  | _ => false
  end.

Definition is_registration (c : Call) : bool :=
  match c with
  | AddEventListener _ _ => true
  | _ => false
  end.

(** The world a successful run of the handler leaves: one display of
    [title] with [options], whose promise the event waits for. *)
Definition displayed (event : PushEvent) (title : JsValue)
  (options : NotificationOptions) (w : World) : World :=
  {| listeners := listeners w;
     promises := S (promises w);
     extend_lifetime := extend_lifetime w ++ [(event_id event, promises w)];
     calls := calls w ++ [ShowNotification title options (promises w);
                          WaitUntil (event_id event) (promises w)] |}.

(** ** A reference JSON reader

    Theorems about the worker hold for every reader.  To run the handler
    on the bytes of a concrete message one reader is needed: this one
    follows the JSON grammar (RFC 8259) by recursive descent, keeps the
    last of several members of one name, as the platform does, and writes
    the text of a string back as UTF-8. *)
Module RefJSON.

Definition quote : ascii := "034"%char.
Definition backslash : ascii := "092"%char.

(** [qt s] is [s] between double quotes, for writing messages down. *)
Definition qt (s : string) : string :=
  String quote s +:+ String quote EmptyString.

Definition is_ws (c : ascii) : bool :=
  Ascii.eqb c " " || Ascii.eqb c "009" || Ascii.eqb c "010"
  || Ascii.eqb c "013".

Fixpoint skip_ws (s : string) : string :=
  match s with
  | String c s' => if is_ws c then skip_ws s' else s
  | EmptyString => s
  end.

Fixpoint strip (p s : string) : option string :=
  match p, s with
  | EmptyString, _ => Some s
  | String a p', String b s' => if Ascii.eqb a b then strip p' s' else None
  | String _ _, EmptyString => None
  end.

(** *** Numbers *)

Definition digit (c : ascii) : option (Decimal.uint -> Decimal.uint) :=
  match N_of_ascii c with
  | 48 => Some Decimal.D0 | 49 => Some Decimal.D1 | 50 => Some Decimal.D2
  | 51 => Some Decimal.D3 | 52 => Some Decimal.D4 | 53 => Some Decimal.D5
  | 54 => Some Decimal.D6 | 55 => Some Decimal.D7 | 56 => Some Decimal.D8
  | 57 => Some Decimal.D9
  | _ => None
  end%N.

Fixpoint digits (s : string) : Decimal.uint * string :=
  match s with
  | String c s' =>
      match digit c with
      | Some d => let '(u, r) := digits s' in (d u, r)
      | None => (Decimal.Nil, s)
      end
  | EmptyString => (Decimal.Nil, s)
  end.

Definition is_nil (u : Decimal.uint) : bool :=
  match u with
  | Decimal.Nil => true
  | _ => false
  end.

(** The integer part: one or more digits, no leading zero. *)
Definition int_part (s : string) : option (Decimal.uint * string) :=
  let '(u, r) := digits s in
  match u with
  | Decimal.Nil => None
  | Decimal.D0 u' => if is_nil u' then Some (u, r) else None
  | _ => Some (u, r)
  end.

Definition frac_part (s : string) : option (Decimal.uint * string) :=
  match s with
  | String c s' =>
      if Ascii.eqb c "." then
        let '(u, r) := digits s' in
        if is_nil u then None else Some (u, r)
      else Some (Decimal.Nil, s)
  | EmptyString => Some (Decimal.Nil, s)
  end.

Definition exp_part (s : string) : option (option Decimal.int * string) :=
  match s with
  | String c s' =>
      if Ascii.eqb c "e" || Ascii.eqb c "E" then
        let '(neg, s'') :=
          match s' with
          | String sg t =>
              if Ascii.eqb sg "-" then (true, t)
              else if Ascii.eqb sg "+" then (false, t)
              else (false, s')
          | EmptyString => (false, s')
          end in
        let '(u, r) := digits s'' in
        if is_nil u then None
        else Some (Some (if neg then Decimal.Neg u else Decimal.Pos u), r)
      else Some (None, s)
  | EmptyString => Some (None, s)
  end.

Definition number (s : string) : option (Json * string) :=
  let '(neg, s1) :=
    match s with
    | String c t => if Ascii.eqb c "-" then (true, t) else (false, s)
    | EmptyString => (false, s)
    end in
  match int_part s1 with
  | None => None
  | Some (i, s2) =>
      match frac_part s2 with
      | None => None
      | Some (f, s3) =>
          match exp_part s3 with
          | None => None
          | Some (oe, s4) =>
              let i' := if neg then Decimal.Neg i else Decimal.Pos i in
              Some (JNumber match oe with
                            | Some e => Decimal.DecimalExp i' f e
                            | None => Decimal.Decimal i' f
                            end, s4)
          end
      end
  end.

(** *** Strings *)

Definition hex (c : ascii) : option N :=
  let n := N_of_ascii c in
  (if (48 <=? n) && (n <=? 57) then Some (n - 48)
   else if (65 <=? n) && (n <=? 70) then Some (n - 55)
   else if (97 <=? n) && (n <=? 102) then Some (n - 87)
   else None)%N.

Definition hex4 (a b c d : ascii) : option N :=
  match hex a, hex b, hex c, hex d with
  | Some x, Some y, Some z, Some t =>
      Some (((x * 16 + y) * 16 + z) * 16 + t)%N
  | _, _, _, _ => None
  end.

Definition byte (n : N) : string := String (ascii_of_N n) EmptyString.

(** The UTF-8 bytes of a code point. *)
Definition utf8 (cp : N) : string :=
  if (cp <? 128)%N then byte cp
  else if (cp <? 2048)%N then
    byte (192 + cp / 64)%N +:+ byte (128 + cp mod 64)%N
  else if (cp <? 65536)%N then
    byte (224 + cp / 4096)%N +:+ byte (128 + (cp / 64) mod 64)%N
    +:+ byte (128 + cp mod 64)%N
  else
    byte (240 + cp / 262144)%N +:+ byte (128 + (cp / 4096) mod 64)%N
    +:+ byte (128 + (cp / 64) mod 64)%N +:+ byte (128 + cp mod 64)%N.

Definition is_high (n : N) : bool := ((55296 <=? n) && (n <=? 56319))%N.
Definition is_low (n : N) : bool := ((56320 <=? n) && (n <=? 57343))%N.

Definition escape (c : ascii) : option ascii :=
  if Ascii.eqb c quote then Some quote
  else if Ascii.eqb c backslash then Some backslash
  else if Ascii.eqb c "/" then Some "/"%char
  else if Ascii.eqb c "b" then Some "008"%char
  else if Ascii.eqb c "f" then Some "012"%char
  else if Ascii.eqb c "n" then Some "010"%char
  else if Ascii.eqb c "r" then Some "013"%char
  else if Ascii.eqb c "t" then Some "009"%char
  else None.

(** The low half of a surrogate pair, when [s] starts with one. *)
Definition low_escape (s : string) : option N :=
  match s with
  | String b (String u (String h1 (String h2 (String h3 (String h4 _))))) =>
      if Ascii.eqb b backslash && Ascii.eqb u "u" then
        match hex4 h1 h2 h3 h4 with
        | Some lo => if is_low lo then Some lo else None
        | None => None
        end
      else None
  | _ => None
  end.

Definition cons_char (c : ascii) (r : option (string * string))
  : option (string * string) :=
  match r with
  | Some (t, rest) => Some (String c t, rest)
  | None => None
  end.

Definition cons_text (p : string) (r : option (string * string))
  : option (string * string) :=
  match r with
  | Some (t, rest) => Some (p +:+ t, rest)
  | None => None
  end.

(** The text after an opening quote, up to the closing one. *)
Fixpoint string_body (s : string) : option (string * string) :=
  match s with
  | EmptyString => None
  | String c s' =>
      if Ascii.eqb c quote then Some (EmptyString, s')
      else if Ascii.eqb c backslash then
        match s' with
        | EmptyString => None
        | String e s'' =>
            if Ascii.eqb e "u" then
              match s'' with
              | String h1 (String h2 (String h3 (String h4 r))) =>
                  match hex4 h1 h2 h3 h4 with
                  | None => None
                  | Some hi =>
                      match (if is_high hi then low_escape r else None), r with
                      | Some lo,
                        String _ (String _ (String _ (String _
                          (String _ (String _ r'))))) =>
                          cons_text
                            (utf8 (65536 + (hi - 55296) * 1024
                                   + (lo - 56320))%N)
                            (string_body r')
                      | _, _ => cons_text (utf8 hi) (string_body r)
                      end
                  end
              | _ => None
              end
            else
              match escape e with
              | Some x => cons_char x (string_body s'')
              | None => None
              end
        end
      else if (N_of_ascii c <? 32)%N then None
      else cons_char c (string_body s')
  end.

(** *** Values *)

Fixpoint value (fuel : nat) (s : string) : option (Json * string) :=
  match fuel with
  | O => None
  | S fuel' =>
      match skip_ws s with
      | EmptyString => None
      | String c r as s0 =>
          if Ascii.eqb c quote then
            match string_body r with
            | Some (t, rest) => Some (JString t, rest)
            | None => None
            end
          else if Ascii.eqb c "[" then
            match skip_ws r with
            | String c' r' =>
                if Ascii.eqb c' "]" then Some (JArray [], r')
                else elements fuel' r []
            | EmptyString => None
            end
          else if Ascii.eqb c "{" then
            match skip_ws r with
            | String c' r' =>
                if Ascii.eqb c' "}" then Some (JObject ∅, r')
                else members fuel' r ∅
            | EmptyString => None
            end
          else
            match strip "true" s0, strip "false" s0, strip "null" s0 with
            | Some rest, _, _ => Some (JBool true, rest)
            | _, Some rest, _ => Some (JBool false, rest)
            | _, _, Some rest => Some (JNull, rest)
            | None, None, None => number s0
            end
      end
  end
with elements (fuel : nat) (s : string) (acc : list Json)
  : option (Json * string) :=
  match fuel with
  | O => None
  | S fuel' =>
      match value fuel' s with
      | None => None
      | Some (v, r) =>
          match skip_ws r with
          | String c r' =>
              if Ascii.eqb c "," then elements fuel' r' (acc ++ [v])
              else if Ascii.eqb c "]" then Some (JArray (acc ++ [v]), r')
              else None
          | EmptyString => None
          end
      end
  end
with members (fuel : nat) (s : string) (acc : gmap string Json)
  : option (Json * string) :=
  match fuel with
  | O => None
  | S fuel' =>
      match skip_ws s with
      | EmptyString => None
      | String q r =>
          if Ascii.eqb q quote then
            match string_body r with
            | None => None
            | Some (k, r1) =>
                match skip_ws r1 with
                | EmptyString => None
                | String c r2 =>
                    if Ascii.eqb c ":" then
                      match value fuel' r2 with
                      | None => None
                      | Some (v, r3) =>
                          match skip_ws r3 with
                          | String c' r4 =>
                              if Ascii.eqb c' "," then
                                members fuel' r4 (<[k:=v]> acc)
                              else if Ascii.eqb c' "}" then
                                Some (JObject (<[k:=v]> acc), r4)
                              else None
                          | EmptyString => None
                          end
                      end
                    else None
                end
            end
          else None
      end
  end.

(** A whole text: one value, and nothing but blanks after it. *)
Definition parse (s : string) : option Json :=
  match value (2 * String.length s + 2) s with
  | Some (v, r) =>
      match skip_ws r with
      | EmptyString => Some v
      | String _ _ => None
      end
  | None => None
  end.

End RefJSON.

(** The arguments of the display calls in a log, in order. *)
Definition displays (l : list Call) : list (JsValue * NotificationOptions) :=
  omap (fun c => match c with
                 | ShowNotification t o _ => Some (t, o)
                 | _ => None
                 end) l.

(** A display call is fully populated when neither its heading nor the
    body of its options is [undefined]. *)
Definition populated (c : Call) : Prop :=
  match c with
  | ShowNotification t o _ => t <> JUndefined /\ body o <> JUndefined
  | _ => True
  end.

Section Payload.

Variable json_parse : string -> option Json.

(** The event carries nothing, or an object that has both members. *)
Definition complete_payload (event : PushEvent) : Prop :=
  match data event with
  | None => True
  | Some d =>
      match json_parse (bytes d) with
      | Some (JObject props) =>
          is_Some (props !! "title") /\ is_Some (props !! "body")
      | _ => False
      end
  end.

End Payload.

(** ** Messages to run the handler on *)
Module Messages.

Import RefJSON.

(** [{"title":"Meeting","body":"Starts in 5 minutes"}] *)
Definition meeting_bytes : string :=
  "{" +:+ qt "title" +:+ ":" +:+ qt "Meeting" +:+ ","
      +:+ qt "body" +:+ ":" +:+ qt "Starts in 5 minutes" +:+ "}".

Definition meeting : PushEvent :=
  {| event_id := 1; data := Some {| bytes := meeting_bytes |} |}.

(** The same message, delivered again as another event. *)
Definition meeting_again : PushEvent :=
  {| event_id := 2; data := Some {| bytes := meeting_bytes |} |}.

(** [{"title":"Meeting"}] *)
Definition title_only : PushEvent :=
  {| event_id := 1;
     data := Some {| bytes := "{" +:+ qt "title" +:+ ":" +:+ qt "Meeting"
                                  +:+ "}" |} |}.

(** [{"title":"Meeting"] with the closing brace lost *)
Definition truncated : PushEvent :=
  {| event_id := 1;
     data := Some {| bytes := "{" +:+ qt "title" +:+ ":" +:+ qt "Meeting" |} |}.

Definition empty : PushEvent := {| event_id := 1; data := None |}.

End Messages.

(** ** Delivery of several events *)

Section Delivery.

Variable json_parse : string -> option Json.

(** The platform hands push events to the worker one at a time, each to
    the listeners registered for ['push']. *)
Fixpoint deliver (events : list PushEvent) (w : World) : World :=
  match events with
  | [] => w
  | event :: events' =>
      deliver events' (snd (dispatch json_parse "push" event w))
  end.

(** The events the handler has something to display for: those without
    data, and those whose data reads as a JSON value other than [null]. *)
Definition displayable (event : PushEvent) : bool :=
  match data event with
  | None => true
  | Some d =>
      match json_parse (bytes d) with
      | None => false
      | Some JNull => false
      | Some _ => true
      end
  end.

End Delivery.

(** No two of the promises that events wait for are the same, and each
    of them was created before the next one to come. *)
Definition lifetimes_sound (w : World) : Prop :=
  NoDup (map snd (extend_lifetime w))
  /\ Forall (fun ep => snd ep < promises w) (extend_lifetime w).

(** ** More messages *)
Module Payloads.

Import RefJSON.

(** [null] *)
Definition null_payload : PushEvent :=
  {| event_id := 4; data := Some {| bytes := "null" |} |}.

(** [42] *)
Definition number_payload : PushEvent :=
  {| event_id := 5; data := Some {| bytes := "42" |} |}.

(** [{"body":"Starts in 5 minutes"}] *)
Definition body_only : PushEvent :=
  {| event_id := 6;
     data := Some {| bytes := "{" +:+ qt "body" +:+ ":"
                                  +:+ qt "Starts in 5 minutes" +:+ "}" |} |}.

(** The meeting message with two members more, [icon] and [url]. *)
Definition meeting_extended : PushEvent :=
  {| event_id := 7;
     data := Some {| bytes := "{" +:+ qt "icon" +:+ ":" +:+ qt "/other.png"
                                  +:+ "," +:+ qt "title" +:+ ":"
                                  +:+ qt "Meeting" +:+ ","
                                  +:+ qt "url" +:+ ":" +:+ qt "/m" +:+ ","
                                  +:+ qt "body" +:+ ":"
                                  +:+ qt "Starts in 5 minutes" +:+ "}" |} |}.

(** The worker after its script has run. *)
Definition loaded : World := snd (sw_script initial_world).

End Payloads.

(** * Properties of the worker *)

Lemma emitted_app (w w' : World) (l : list Call) :
  calls w' = calls w ++ l -> emitted w w' = l.
Proof.
  intros E. unfold emitted. rewrite E. apply drop_app_length.
Qed.

Lemma emitted_same (w : World) : emitted w w = [].
Proof. unfold emitted. apply drop_all. Qed.

Lemma emitted_displayed (event : PushEvent) (t : JsValue)
  (o : NotificationOptions) (w : World) :
  emitted w (displayed event t o w)
  = [ShowNotification t o (promises w);
     WaitUntil (event_id event) (promises w)].
Proof. apply emitted_app. reflexivity. Qed.

Lemma get_prop_member (props : gmap string Json) (k : string) (x : Json) :
  props !! k = Some x -> get_prop (JObject props) k = Normal (JVal x).
Proof. intros E. simpl. rewrite E. reflexivity. Qed.

Lemma get_prop_missing (props : gmap string Json) (k : string) :
  props !! k = None -> get_prop (JObject props) k = Normal JUndefined.
Proof. intros E. simpl. rewrite E. reflexivity. Qed.

(** Reading a member throws on [null] and on nothing else. *)
Lemma get_prop_completes (v : Json) (k : string) :
  v <> JNull -> exists x, get_prop v k = Normal x.
Proof.
  destruct v as [| b | d | s | xs | props]; intros Hv; simpl; eauto.
  - congruence.
  - destruct (props !! k); eauto.
Qed.

Section WorkerFacts.

Variable json_parse : string -> option Json.

Abbreviation handler := (push_handler json_parse).

(** The handler from the point where [data] is bound. *)
Lemma handler_with_data (event : PushEvent) (w : World) (v : Json)
  (t b : JsValue) :
  match data event with
  | Some d => json_parse (bytes d) = Some v
  | None => v = JObject {[ "title" := JString fallback_title;
                           "body" := JString fallback_body ]}
  end ->
  get_prop v "title" = Normal t ->
  get_prop v "body" = Normal b ->
  handler event w
  = (Normal tt,
     displayed event t {| body := b; icon := JVal (JString icon_path) |} w).
Proof.
  intros Hv Ht Hb.
  unfold push_handler, json, bind, lift, ret, showNotification, waitUntil.
  unfold displayed.
  destruct (data event) as [d |]; [rewrite Hv | subst v];
    rewrite Ht, Hb; simpl; rewrite <- app_assoc; reflexivity.
Qed.

Lemma handler_syntax_error (event : PushEvent) (w : World)
  (d : PushMessageData) :
  data event = Some d -> json_parse (bytes d) = None ->
  handler event w = (Throw SyntaxError, w).
Proof.
  intros Hd Hp. unfold push_handler, json, bind, throw.
  rewrite Hd, Hp. reflexivity.
Qed.

Lemma handler_null (event : PushEvent) (w : World) (d : PushMessageData) :
  data event = Some d -> json_parse (bytes d) = Some JNull ->
  handler event w = (Throw TypeError, w).
Proof.
  intros Hd Hp. unfold push_handler, json, bind, lift, ret.
  rewrite Hd, Hp. reflexivity.
Qed.

(** The handler on an object, whichever members it has. *)
Lemma handler_object (event : PushEvent) (w : World) (d : PushMessageData)
  (props : gmap string Json) (t b : JsValue) :
  data event = Some d ->
  json_parse (bytes d) = Some (JObject props) ->
  get_prop (JObject props) "title" = Normal t ->
  get_prop (JObject props) "body" = Normal b ->
  handler event w
  = (Normal tt,
     displayed event t {| body := b; icon := JVal (JString icon_path) |} w).
Proof.
  intros Hd Hp Ht Hb. apply handler_with_data with (v := JObject props); auto.
  rewrite Hd. exact Hp.
Qed.

Lemma handler_fallback (event : PushEvent) (w : World) :
  data event = None ->
  handler event w
  = (Normal tt,
     displayed event (JVal (JString fallback_title))
       {| body := JVal (JString fallback_body);
          icon := JVal (JString icon_path) |} w).
Proof.
  intros Hd. eapply handler_with_data;
    [rewrite Hd; reflexivity | reflexivity ..].
Qed.

(** A run of the handler either throws and leaves the world as it was, or
    makes one display and waits for it. *)
Lemma handler_cases (event : PushEvent) (w : World) :
  (exists e, handler event w = (Throw e, w))
  \/ (exists t b,
        handler event w
        = (Normal tt,
           displayed event t
             {| body := b; icon := JVal (JString icon_path) |} w)).
Proof.
  destruct (data event) as [d |] eqn:Hd.
  - destruct (json_parse (bytes d)) as [v |] eqn:Hp.
    + assert (v = JNull \/ v <> JNull) as [-> | Hv]
        by (destruct v; auto; right; discriminate).
      * left. exists TypeError. apply (handler_null event w d Hd Hp).
      * destruct (get_prop_completes v "title" Hv) as [t Ht].
        destruct (get_prop_completes v "body" Hv) as [b Hb].
        right. exists t, b. apply handler_with_data with (v := v); auto.
        rewrite Hd. exact Hp.
    + left. exists SyntaxError. apply (handler_syntax_error event w d Hd Hp).
  - right. eexists _, _. apply (handler_fallback event w Hd).
Qed.

(** C1: when the data of a push event parses as an object with a [title]
    member [T] and a [body] member [B], the handler completes and makes
    exactly one display call, with heading [T] and the options
    [{body: B, icon: '/icon.png'}]; the one other call is the [waitUntil]
    on the promise of that display. *)
Theorem handler_displays_payload (event : PushEvent) (w : World)
  (d : PushMessageData) (props : gmap string Json) (T B : Json) :
  data event = Some d ->
  json_parse (bytes d) = Some (JObject props) ->
  props !! "title" = Some T ->
  props !! "body" = Some B ->
  fst (handler event w) = Normal tt
  /\ emitted w (snd (handler event w))
     = [ShowNotification (JVal T)
          {| body := JVal B; icon := JVal (JString "/icon.png") |}
          (promises w);
        WaitUntil (event_id event) (promises w)].
Proof.
  intros Hd Hp HT HB.
  rewrite (handler_object event w d props (JVal T) (JVal B))
    by auto using get_prop_member.
  split; [reflexivity | apply emitted_displayed].
Qed.

(** C2: when a push event carries no data, the handler displays the two
    fallback strings, with the same icon. *)
Theorem handler_displays_fallback (event : PushEvent) (w : World) :
  data event = None ->
  fst (handler event w) = Normal tt
  /\ emitted w (snd (handler event w))
     = [ShowNotification (JVal (JString "默认标题"))
          {| body := JVal (JString "没有消息内容");
             icon := JVal (JString "/icon.png") |}
          (promises w);
        WaitUntil (event_id event) (promises w)].
Proof.
  intros Hd. rewrite (handler_fallback event w Hd).
  split; [reflexivity | apply emitted_displayed].
Qed.

(** C3: when the data parses as an object with a [title] member and no
    [body] member, the body of the display's options is [undefined]; it is
    not the fallback body. *)
Theorem handler_body_missing (event : PushEvent) (w : World)
  (d : PushMessageData) (props : gmap string Json) (T : Json) :
  data event = Some d ->
  json_parse (bytes d) = Some (JObject props) ->
  props !! "title" = Some T ->
  props !! "body" = None ->
  emitted w (snd (handler event w))
  = [ShowNotification (JVal T)
       {| body := JUndefined; icon := JVal (JString "/icon.png") |}
       (promises w);
     WaitUntil (event_id event) (promises w)]
  /\ forall t o p,
       In (ShowNotification t o p) (emitted w (snd (handler event w))) ->
       body o = JUndefined /\ body o <> JVal (JString "没有消息内容").
Proof.
  intros Hd Hp HT HB.
  rewrite (handler_object event w d props (JVal T) JUndefined)
    by auto using get_prop_member, get_prop_missing.
  simpl snd. rewrite emitted_displayed. split; [reflexivity |].
  intros t o p [E | [E | []]]; [| discriminate E].
  injection E as _ <- _. simpl. split; [reflexivity | discriminate].
Qed.

(** C4: when the data is there and is not JSON, the reader's [SyntaxError]
    leaves the handler as it was thrown: the handler completes abruptly
    with it, and has made no call, so no display. *)
Theorem handler_malformed (event : PushEvent) (w : World)
  (d : PushMessageData) :
  data event = Some d ->
  json_parse (bytes d) = None ->
  handler event w = (Throw SyntaxError, w)
  /\ emitted w (snd (handler event w)) = [].
Proof.
  intros Hd Hp. rewrite (handler_syntax_error event w d Hd Hp).
  split; [reflexivity | apply emitted_same].
Qed.

(** The calls of a run, for the two ways it can end. *)
Lemma handler_emitted (event : PushEvent) (w : World) :
  emitted w (snd (handler event w)) = []
  \/ exists t b,
       handler event w
       = (Normal tt,
          displayed event t
            {| body := b; icon := JVal (JString icon_path) |} w)
       /\ emitted w (snd (handler event w))
          = [ShowNotification t
               {| body := b; icon := JVal (JString icon_path) |} (promises w);
             WaitUntil (event_id event) (promises w)].
Proof.
  destruct (handler_cases event w) as [[e E] | (t & b & E)].
  - left. rewrite E. apply emitted_same.
  - right. exists t, b. split; [exact E |].
    rewrite E. apply emitted_displayed.
Qed.

(** C5, as amended: when a push event carries no data, or data that
    parses as an object with both a [title] and a [body] member, the one
    display call of the handler is fully populated: its heading and body
    are the two fallback strings in the first case and the two members in
    the second. *)
Theorem handler_populated (event : PushEvent) (w : World) :
  complete_payload json_parse event ->
  Forall populated (emitted w (snd (handler event w)))
  /\ exists T B,
       emitted w (snd (handler event w))
       = [ShowNotification (JVal T)
            {| body := JVal B; icon := JVal (JString "/icon.png") |}
            (promises w);
          WaitUntil (event_id event) (promises w)]
       /\ match data event with
          | None => T = JString "默认标题" /\ B = JString "没有消息内容"
          | Some d =>
              exists props,
                json_parse (bytes d) = Some (JObject props)
                /\ props !! "title" = Some T /\ props !! "body" = Some B
          end.
Proof.
  unfold complete_payload. intros Hc.
  assert (exists T B,
    emitted w (snd (handler event w))
    = [ShowNotification (JVal T)
         {| body := JVal B; icon := JVal (JString "/icon.png") |}
         (promises w);
       WaitUntil (event_id event) (promises w)]
    /\ match data event with
       | None => T = JString "默认标题" /\ B = JString "没有消息内容"
       | Some d =>
           exists props,
             json_parse (bytes d) = Some (JObject props)
             /\ props !! "title" = Some T /\ props !! "body" = Some B
       end) as (T & B & E & Ho).
  { destruct (data event) as [d |] eqn:Hd.
    - destruct (json_parse (bytes d)) as [[| | | | | props] |] eqn:Hp;
        try contradiction.
      destruct Hc as [[T HT] [B HB]]. exists T, B.
      split; [| exists props; auto].
      rewrite (handler_object event w d props (JVal T) (JVal B))
        by auto using get_prop_member.
      apply emitted_displayed.
    - eexists _, _. split; [| split; reflexivity].
      rewrite (handler_fallback event w Hd). apply emitted_displayed. }
  split; [| exists T, B; auto].
  rewrite E. repeat constructor; simpl; discriminate.
Qed.

(** The other way round: a display call made for a payload that lacks a
    member is not fully populated. *)
Lemma handler_populated_only_if (event : PushEvent) (w : World)
  (t : JsValue) (o : NotificationOptions) (p : Promise) :
  In (ShowNotification t o p) (emitted w (snd (handler event w))) ->
  t <> JUndefined -> body o <> JUndefined ->
  complete_payload json_parse event.
Proof.
  unfold complete_payload.
  destruct (data event) as [d |] eqn:Hd; [| trivial].
  destruct (json_parse (bytes d)) as [v |] eqn:Hp.
  - assert (v = JNull \/ v <> JNull) as [-> | Hv]
      by (destruct v; auto; right; discriminate).
    + rewrite (handler_null event w d Hd Hp). simpl.
      rewrite emitted_same. intros [].
    + destruct (get_prop_completes v "title" Hv) as [t' Ht].
      destruct (get_prop_completes v "body" Hv) as [b' Hb].
      rewrite (handler_with_data event w v t' b')
        by (try assumption; rewrite Hd; exact Hp).
      simpl snd. rewrite emitted_displayed.
      intros [E | [E | []]]; [| discriminate E].
      injection E as <- <- _. simpl. intros Nt Nb.
      destruct v as [| bb | n | s | xs | props]; simpl in Ht, Hb;
        try congruence.
      destruct (props !! "title"), (props !! "body");
        try congruence; split; eauto.
  - rewrite (handler_syntax_error event w d Hd Hp). simpl.
    rewrite emitted_same. intros [].
Qed.

(** C6: the handler makes at most one display call for an event, whatever
    the event carries. *)
Theorem handler_displays_at_most_once (event : PushEvent) (w : World) :
  length (displays (emitted w (snd (handler event w)))) <= 1.
Proof.
  destruct (handler_emitted event w) as [E | (t & b & _ & E)];
    rewrite E; simpl; lia.
Qed.

(** C7: the promise of every display call the handler makes for an event
    is handed to that event's [waitUntil]; the event then waits for it,
    and is alive for as long as that promise has not settled. *)
Theorem handler_waits_for_display (event : PushEvent) (w : World)
  (t : JsValue) (o : NotificationOptions) (p : Promise) :
  In (ShowNotification t o p) (emitted w (snd (handler event w))) ->
  In (WaitUntil (event_id event) p) (emitted w (snd (handler event w)))
  /\ In (event_id event, p) (extend_lifetime (snd (handler event w)))
  /\ forall settled : Promise -> bool,
       settled p = false ->
       event_alive settled (snd (handler event w)) (event_id event) = true.
Proof.
  destruct (handler_emitted event w) as [E | (t' & b' & Eh & E)];
    rewrite E; [intros [] |].
  intros [H | [H | []]]; [| discriminate H].
  injection H as _ _ <-. rewrite Eh. simpl.
  assert (In (event_id event, promises w)
             (extend_lifetime w ++ [(event_id event, promises w)])) as Hin.
  { apply in_or_app. right. left. reflexivity. }
  split; [right; left; reflexivity |].
  split; [exact Hin |].
  intros settled Hs. unfold event_alive. simpl.
  apply existsb_exists. exists (event_id event, promises w).
  split; [exact Hin |]. simpl.
  rewrite Nat.eqb_refl, Hs. reflexivity.
Qed.

(** C8: the options of every display call the handler makes have
    ['/icon.png'] as their icon. *)
Theorem handler_icon_fixed (event : PushEvent) (w : World)
  (t : JsValue) (o : NotificationOptions) (p : Promise) :
  In (ShowNotification t o p) (emitted w (snd (handler event w))) ->
  icon o = JVal (JString "/icon.png").
Proof.
  destruct (handler_emitted event w) as [E | (t' & b' & _ & E)];
    rewrite E; [intros [] |].
  intros [H | [H | []]]; [| discriminate H].
  injection H as _ <- _. reflexivity.
Qed.

(** After loading, a push event is delivered to the handler, once. *)
Lemma dispatch_after_load (event : PushEvent) :
  dispatch json_parse "push" event (snd (sw_script initial_world))
  = ([fst (handler event (snd (sw_script initial_world)))],
     snd (handler event (snd (sw_script initial_world)))).
Proof.
  unfold dispatch. simpl.
  destruct (handler event _) as [c w']. reflexivity.
Qed.

(** C9: loading the script makes one platform call, the registration of
    the handler for ['push'], and leaves that one listener; the handler,
    which is what runs afterwards, registers nothing. *)
Theorem script_registers_once :
  sw_script initial_world
  = (Normal tt,
     {| listeners := [("push", PushCallback)];
        promises := 0;
        extend_lifetime := [];
        calls := [AddEventListener "push" PushCallback] |})
  /\ call json_parse PushCallback = handler
  /\ (forall w, listeners (snd (sw_script w))
                = listeners w ++ [("push", PushCallback)])
  /\ (forall event w, listeners (snd (handler event w)) = listeners w)
  /\ (forall event w,
        Forall (fun c => is_registration c = false)
               (emitted w (snd (handler event w)))).
Proof.
  split; [reflexivity |]. split; [reflexivity |]. split; [reflexivity |].
  split; intros event w.
  - destruct (handler_cases event w) as [[e E] | (t & b & E)];
      rewrite E; reflexivity.
  - destruct (handler_emitted event w) as [E | (t & b & _ & E)];
      rewrite E; repeat constructor.
Qed.

(** C10: two push events with the same data end the handler the same way,
    with the same failure if it throws, and have it display the same
    heading and options, whatever the worlds they are handled in. *)
Theorem handler_deterministic (e1 e2 : PushEvent) (w1 w2 : World) :
  data e1 = data e2 ->
  fst (handler e1 w1) = fst (handler e2 w2)
  /\ displays (emitted w1 (snd (handler e1 w1)))
     = displays (emitted w2 (snd (handler e2 w2))).
Proof.
  intros Hd.
  destruct (data e2) as [d |] eqn:Hd2.
  - destruct (json_parse (bytes d)) as [v |] eqn:Hp.
    + assert (v = JNull \/ v <> JNull) as [-> | Hv]
        by (destruct v; auto; right; discriminate).
      * rewrite (handler_null e1 w1 d), (handler_null e2 w2 d) by auto.
        simpl. rewrite !emitted_same. auto.
      * destruct (get_prop_completes v "title" Hv) as [t Ht].
        destruct (get_prop_completes v "body" Hv) as [b Hb].
        rewrite (handler_with_data e1 w1 v t b),
                (handler_with_data e2 w2 v t b);
          try assumption; try (rewrite ?Hd, ?Hd2; exact Hp).
        simpl. rewrite !emitted_displayed. auto.
    + rewrite (handler_syntax_error e1 w1 d),
              (handler_syntax_error e2 w2 d) by auto.
      simpl. rewrite !emitted_same. auto.
  - rewrite (handler_fallback e1 w1 Hd), (handler_fallback e2 w2 Hd2).
    simpl. rewrite !emitted_displayed. auto.
Qed.

End WorkerFacts.

(** * The handler on concrete messages *)

Section Runs.

Import Messages.

Abbreviation run := (push_handler RefJSON.parse).

Lemma handler_displays_payload_meeting :
  fst (run meeting initial_world) = Normal tt
  /\ emitted initial_world (snd (run meeting initial_world))
     = [ShowNotification (JVal (JString "Meeting"))
          {| body := JVal (JString "Starts in 5 minutes");
             icon := JVal (JString "/icon.png") |} 0;
        WaitUntil 1 0].
Proof.
  apply (handler_displays_payload RefJSON.parse meeting initial_world
           {| bytes := meeting_bytes |}
           {[ "title" := JString "Meeting";
              "body" := JString "Starts in 5 minutes" ]}
           (JString "Meeting") (JString "Starts in 5 minutes"));
    vm_compute; reflexivity.
Defined.

Lemma handler_displays_fallback_empty :
  fst (run empty initial_world) = Normal tt
  /\ emitted initial_world (snd (run empty initial_world))
     = [ShowNotification (JVal (JString "默认标题"))
          {| body := JVal (JString "没有消息内容");
             icon := JVal (JString "/icon.png") |} 0;
        WaitUntil 1 0].
Proof.
  apply (handler_displays_fallback RefJSON.parse empty initial_world).
  reflexivity.
Defined.

Lemma handler_body_missing_title_only :
  emitted initial_world (snd (run title_only initial_world))
  = [ShowNotification (JVal (JString "Meeting"))
       {| body := JUndefined; icon := JVal (JString "/icon.png") |} 0;
     WaitUntil 1 0]
  /\ forall t o p,
       In (ShowNotification t o p)
          (emitted initial_world (snd (run title_only initial_world))) ->
       body o = JUndefined /\ body o <> JVal (JString "没有消息内容").
Proof.
  apply (handler_body_missing RefJSON.parse title_only initial_world
           {| bytes := "{" +:+ RefJSON.qt "title" +:+ ":"
                           +:+ RefJSON.qt "Meeting" +:+ "}" |}
           {[ "title" := JString "Meeting" ]} (JString "Meeting"));
    vm_compute; reflexivity.
Defined.

Lemma handler_malformed_truncated :
  run truncated initial_world = (Throw SyntaxError, initial_world)
  /\ emitted initial_world (snd (run truncated initial_world)) = [].
Proof.
  apply (handler_malformed RefJSON.parse truncated initial_world
           {| bytes := "{" +:+ RefJSON.qt "title" +:+ ":"
                           +:+ RefJSON.qt "Meeting" |});
    vm_compute; reflexivity.
Defined.

(** C5, as first stated, fails: on [{"title":"Meeting"}] the handler
    displays with a body that is [undefined]. *)
Lemma display_not_populated :
  emitted initial_world (snd (run title_only initial_world))
  = [ShowNotification (JVal (JString "Meeting"))
       {| body := JUndefined; icon := JVal (JString "/icon.png") |} 0;
     WaitUntil 1 0]
  /\ ~ Forall populated
         (emitted initial_world (snd (run title_only initial_world))).
Proof.
  assert (emitted initial_world (snd (run title_only initial_world))
          = [ShowNotification (JVal (JString "Meeting"))
               {| body := JUndefined; icon := JVal (JString "/icon.png") |} 0;
             WaitUntil 1 0]) as E by (vm_compute; reflexivity).
  split; [exact E |].
  rewrite E. intros H. apply Forall_cons in H as [[_ Hb] _].
  apply Hb. reflexivity.
Qed.

Lemma handler_populated_meeting :
  Forall populated (emitted initial_world (snd (run meeting initial_world)))
  /\ exists T B,
       emitted initial_world (snd (run meeting initial_world))
       = [ShowNotification (JVal T)
            {| body := JVal B; icon := JVal (JString "/icon.png") |} 0;
          WaitUntil 1 0]
       /\ exists props,
            RefJSON.parse meeting_bytes = Some (JObject props)
            /\ props !! "title" = Some T /\ props !! "body" = Some B.
Proof.
  apply (handler_populated RefJSON.parse meeting initial_world).
  vm_compute. split; eexists; reflexivity.
Defined.

Lemma handler_waits_for_display_meeting :
  In (ShowNotification (JVal (JString "Meeting"))
        {| body := JVal (JString "Starts in 5 minutes");
           icon := JVal (JString "/icon.png") |} 0)
     (emitted initial_world (snd (run meeting initial_world)))
  /\ In (WaitUntil 1 0)
        (emitted initial_world (snd (run meeting initial_world)))
  /\ In (1, 0) (extend_lifetime (snd (run meeting initial_world)))
  /\ forall settled : Promise -> bool,
       settled 0 = false ->
       event_alive settled (snd (run meeting initial_world)) 1 = true.
Proof.
  assert (In (ShowNotification (JVal (JString "Meeting"))
                {| body := JVal (JString "Starts in 5 minutes");
                   icon := JVal (JString "/icon.png") |} 0)
             (emitted initial_world (snd (run meeting initial_world))))
    as H by (vm_compute; left; reflexivity).
  split; [exact H |].
  exact (handler_waits_for_display RefJSON.parse meeting initial_world
           _ _ _ H).
Defined.

Lemma handler_icon_fixed_empty :
  exists t o p,
    In (ShowNotification t o p)
       (emitted initial_world (snd (run empty initial_world)))
    /\ icon o = JVal (JString "/icon.png").
Proof.
  exists (JVal (JString "默认标题")),
         {| body := JVal (JString "没有消息内容");
            icon := JVal (JString "/icon.png") |}, 0.
  assert (In (ShowNotification (JVal (JString "默认标题"))
                {| body := JVal (JString "没有消息内容");
                   icon := JVal (JString "/icon.png") |} 0)
             (emitted initial_world (snd (run empty initial_world))))
    as H by (vm_compute; left; reflexivity).
  split; [exact H |].
  exact (handler_icon_fixed RefJSON.parse empty initial_world _ _ _ H).
Defined.

Lemma handler_deterministic_meeting :
  fst (run meeting initial_world)
  = fst (run meeting_again (snd (run meeting initial_world)))
  /\ displays (emitted initial_world (snd (run meeting initial_world)))
     = displays (emitted (snd (run meeting initial_world))
                   (snd (run meeting_again (snd (run meeting initial_world))))).
Proof.
  apply (handler_deterministic RefJSON.parse meeting meeting_again
           initial_world (snd (run meeting initial_world))).
  reflexivity.
Defined.

End Runs.

(** * The reference reader on a few texts *)

Section Reader.

Import RefJSON.

Example parse_meeting :
  parse Messages.meeting_bytes
  = Some (JObject {[ "title" := JString "Meeting";
                     "body" := JString "Starts in 5 minutes" ]}).
Proof. vm_compute. reflexivity. Qed.

Example parse_truncated :
  parse ("{" +:+ qt "title" +:+ ":" +:+ qt "Meeting") = None.
Proof. vm_compute. reflexivity. Qed.

Example parse_last_member :
  parse ("{" +:+ qt "title" +:+ ":1, " +:+ qt "title" +:+ ":null}")
  = Some (JObject {[ "title" := JNull ]}).
Proof. vm_compute. reflexivity. Qed.

Example parse_escapes :
  parse (String quote (String backslash "u9ed8")
         +:+ String backslash "uD83D" +:+ String backslash "uDE00"
         +:+ String backslash "n" +:+ String quote EmptyString)
  = Some (JString ("默😀" +:+ String "010" EmptyString)).
Proof. vm_compute. reflexivity. Qed.

Example parse_scalars :
  parse " [true, false, null, -12.5e+3, 0] "
  = Some (JArray
            [JBool true; JBool false; JNull;
             JNumber (Decimal.DecimalExp
                        (Decimal.Neg (Decimal.D1 (Decimal.D2 Decimal.Nil)))
                        (Decimal.D5 Decimal.Nil)
                        (Decimal.Pos (Decimal.D3 Decimal.Nil)));
             JNumber (Decimal.Decimal (Decimal.Pos (Decimal.D0 Decimal.Nil))
                        Decimal.Nil)]).
Proof. vm_compute. reflexivity. Qed.

Example parse_rejects :
  map parse ["nul"; "01"; "1."; "[1,]"; "{"; ""; "1 2"; "tru e"]
  = [None; None; None; None; None; None; None; None].
Proof. vm_compute. reflexivity. Qed.

End Reader.

(** A payload that is [null], or not an object at all. *)
Example handler_on_null (n : nat) (w : World) :
  push_handler RefJSON.parse
    {| event_id := n; data := Some {| bytes := "null" |} |} w
  = (Throw TypeError, w).
Proof. reflexivity. Qed.

Example handler_on_number :
  emitted initial_world
    (snd (push_handler RefJSON.parse
            {| event_id := 1; data := Some {| bytes := "42" |} |}
            initial_world))
  = [ShowNotification JUndefined
       {| body := JUndefined; icon := JVal (JString "/icon.png") |} 0;
     WaitUntil 1 0].
Proof. vm_compute. reflexivity. Qed.

(** * Further properties of the handler *)

Lemma get_prop_object (props : gmap string Json) (k : string) :
  get_prop (JObject props) k
  = Normal (from_option JVal JUndefined (props !! k)).
Proof. simpl. destruct (props !! k); reflexivity. Qed.

Lemma get_prop_other (v : Json) (k : string) :
  v <> JNull -> (forall props, v <> JObject props) ->
  get_prop v k = Normal JUndefined.
Proof.
  intros Hn Ho. destruct v as [| b | d | s | xs | props];
    try reflexivity; [congruence | exfalso; eapply Ho; reflexivity].
Qed.

Lemma json_null_or_not (v : Json) : v = JNull \/ v <> JNull.
Proof. destruct v; auto; right; discriminate. Qed.

Section HandlerFacts.

Variable json_parse : string -> option Json.

Abbreviation handler := (push_handler json_parse).

(** The handler on an object: each of the two arguments is the member of
    that name, or [undefined]. *)
Lemma handler_object_run (event : PushEvent) (w : World)
  (d : PushMessageData) (props : gmap string Json) :
  data event = Some d ->
  json_parse (bytes d) = Some (JObject props) ->
  handler event w
  = (Normal tt,
     displayed event (from_option JVal JUndefined (props !! "title"))
       {| body := from_option JVal JUndefined (props !! "body");
          icon := JVal (JString icon_path) |} w).
Proof.
  intros Hd Hp.
  apply (handler_object json_parse event w d props); auto using get_prop_object.
Qed.

(** The world of a run that throws is the one it started in. *)
Lemma handler_throw_world (event : PushEvent) (w : World) (e : JsError) :
  fst (handler event w) = Throw e -> snd (handler event w) = w.
Proof.
  destruct (handler_cases json_parse event w) as [[e' E] | (t & b & E)];
    rewrite E; simpl; [reflexivity | discriminate].
Qed.

(** The log of a run is the log before it, then the calls of the run. *)
Lemma handler_calls (event : PushEvent) (w : World) :
  calls (snd (handler event w))
  = calls w ++ emitted w (snd (handler event w)).
Proof.
  destruct (handler_cases json_parse event w) as [[e' E] | (t & b & E)];
    rewrite E; simpl snd.
  - rewrite emitted_same, app_nil_r. reflexivity.
  - rewrite emitted_displayed. reflexivity.
Qed.

(** X1: when the data reads as the JSON value [null], reading [title]
    off it throws a [TypeError]; the handler ends with it and has made no
    call. *)
Theorem handler_null_payload (event : PushEvent) (w : World)
  (d : PushMessageData) :
  data event = Some d ->
  json_parse (bytes d) = Some JNull ->
  handler event w = (Throw TypeError, w)
  /\ emitted w (snd (handler event w)) = [].
Proof.
  intros Hd Hp. rewrite (handler_null json_parse event w d Hd Hp).
  split; [reflexivity | apply emitted_same].
Qed.

(** X2: when the data reads as a JSON value that is neither [null] nor an
    object (a boolean, a number, a string, an array), the handler still
    displays, with a heading and a body that are both [undefined]. *)
Theorem handler_non_object (event : PushEvent) (w : World)
  (d : PushMessageData) (v : Json) :
  data event = Some d ->
  json_parse (bytes d) = Some v ->
  v <> JNull ->
  (forall props, v <> JObject props) ->
  fst (handler event w) = Normal tt
  /\ emitted w (snd (handler event w))
     = [ShowNotification JUndefined
          {| body := JUndefined; icon := JVal (JString "/icon.png") |}
          (promises w);
        WaitUntil (event_id event) (promises w)].
Proof.
  intros Hd Hp Hn Ho.
  rewrite (handler_with_data json_parse event w v JUndefined JUndefined)
    by (auto using get_prop_other; rewrite Hd; exact Hp).
  split; [reflexivity | apply emitted_displayed].
Qed.

(** X3: when the data reads as an object, whatever its members, the
    handler completes and displays once: the heading is the [title] member
    and the body the [body] member, each [undefined] when the object has
    no member of that name. *)
Theorem handler_object_members (event : PushEvent) (w : World)
  (d : PushMessageData) (props : gmap string Json) :
  data event = Some d ->
  json_parse (bytes d) = Some (JObject props) ->
  fst (handler event w) = Normal tt
  /\ emitted w (snd (handler event w))
     = [ShowNotification (from_option JVal JUndefined (props !! "title"))
          {| body := from_option JVal JUndefined (props !! "body");
             icon := JVal (JString "/icon.png") |}
          (promises w);
        WaitUntil (event_id event) (promises w)].
Proof.
  intros Hd Hp. rewrite (handler_object_run event w d props Hd Hp).
  split; [reflexivity | apply emitted_displayed].
Qed.

(** X4: how the handler ends.  It throws in two cases only, both with
    data attached: a [SyntaxError] when the data is not JSON and a
    [TypeError] when it is the JSON value [null]; otherwise it completes. *)
Theorem handler_completion (event : PushEvent) (w : World) :
  fst (handler event w)
  = match data event with
    | None => Normal tt
    | Some d =>
        match json_parse (bytes d) with
        | None => Throw SyntaxError
        | Some JNull => Throw TypeError
        | Some _ => Normal tt
        end
    end.
Proof.
  destruct (data event) as [d |] eqn:Hd.
  - destruct (json_parse (bytes d)) as [v |] eqn:Hp.
    + destruct (json_null_or_not v) as [-> | Hv].
      * rewrite (handler_null json_parse event w d Hd Hp). reflexivity.
      * destruct (get_prop_completes v "title" Hv) as [t Ht].
        destruct (get_prop_completes v "body" Hv) as [b Hb].
        rewrite (handler_with_data json_parse event w v t b)
          by (try assumption; rewrite Hd; exact Hp).
        destruct v; try reflexivity. congruence.
    + rewrite (handler_syntax_error json_parse event w d Hd Hp). reflexivity.
  - rewrite (handler_fallback json_parse event w Hd). reflexivity.
Qed.

(** X5: a run that throws has done nothing: both members are read before
    the first platform call, so the world is the one before the event, and
    the next event is handled as if the failed one had never come. *)
Theorem handler_failure_leaves_no_trace (event next : PushEvent) (w : World)
  (e : JsError) :
  fst (handler event w) = Throw e ->
  snd (handler event w) = w
  /\ handler next (snd (handler event w)) = handler next w.
Proof.
  intros H. rewrite (handler_throw_world event w e H). auto.
Qed.

(** X6: only [title] and [body] count.  Two events whose data read as
    objects with the same [title] and the same [body], whatever else the
    objects hold, have the handler display the same heading and options. *)
Theorem handler_ignores_other_members (e1 e2 : PushEvent) (w1 w2 : World)
  (d1 d2 : PushMessageData) (props1 props2 : gmap string Json) :
  data e1 = Some d1 -> json_parse (bytes d1) = Some (JObject props1) ->
  data e2 = Some d2 -> json_parse (bytes d2) = Some (JObject props2) ->
  props1 !! "title" = props2 !! "title" ->
  props1 !! "body" = props2 !! "body" ->
  displays (emitted w1 (snd (handler e1 w1)))
  = displays (emitted w2 (snd (handler e2 w2))).
Proof.
  intros Hd1 Hp1 Hd2 Hp2 Ht Hb.
  rewrite (handler_object_run e1 w1 d1 props1 Hd1 Hp1),
          (handler_object_run e2 w2 d2 props2 Hd2 Hp2).
  simpl snd. rewrite !emitted_displayed, Ht, Hb. reflexivity.
Qed.

(** X7: the handler calls [waitUntil] on the event it was given and on
    nothing but the promise of the display it has just made; it never
    extends an event's lifetime without a display. *)
Theorem handler_waits_only_for_display (event : PushEvent) (w : World)
  (e : nat) (p : Promise) :
  In (WaitUntil e p) (emitted w (snd (handler event w))) ->
  e = event_id event
  /\ exists t o,
       In (ShowNotification t o p) (emitted w (snd (handler event w))).
Proof.
  destruct (handler_emitted json_parse event w) as [E | (t & b & _ & E)];
    rewrite E; [intros [] |].
  intros [H | [H | []]]; [discriminate H |].
  injection H as <- <-. split; [reflexivity |].
  eexists _, _. left. reflexivity.
Qed.

End HandlerFacts.

(** * The worker under delivery *)

Section DeliveryFacts.

Variable json_parse : string -> option Json.

Abbreviation handler := (push_handler json_parse).

(** Listeners for other types are passed over. *)
Lemma dispatch_to_skip (ls ls' : list (string * Callback)) (type : string)
  (event : PushEvent) (w : World) :
  Forall (fun l => fst l <> type) ls ->
  dispatch_to json_parse (ls ++ ls') type event w
  = dispatch_to json_parse ls' type event w.
Proof.
  induction 1 as [| [t cb] ls Ht _ IH]; [reflexivity |].
  simpl in *. apply String.eqb_neq in Ht. rewrite Ht. exact IH.
Qed.

Lemma dispatch_single (event : PushEvent) (w : World) :
  listeners w = [("push", PushCallback)] ->
  dispatch json_parse "push" event w
  = ([fst (handler event w)], snd (handler event w)).
Proof.
  intros Hl. unfold dispatch. rewrite Hl. simpl.
  destruct (handler event w) as [c w']. reflexivity.
Qed.

Lemma handler_listeners (event : PushEvent) (w : World) :
  listeners (snd (handler event w)) = listeners w.
Proof.
  destruct (handler_cases json_parse event w) as [[e E] | (t & b & E)];
    rewrite E; reflexivity.
Qed.

(** One display for an event there is something to display for, none for
    the others. *)
Lemma handler_display_count (event : PushEvent) (w : World) :
  length (displays (emitted w (snd (handler event w))))
  = if displayable json_parse event then 1 else 0.
Proof.
  unfold displayable.
  destruct (data event) as [d |] eqn:Hd.
  - destruct (json_parse (bytes d)) as [v |] eqn:Hp.
    + destruct (json_null_or_not v) as [-> | Hv].
      * rewrite (handler_null json_parse event w d Hd Hp). simpl.
        rewrite emitted_same. reflexivity.
      * destruct (get_prop_completes v "title" Hv) as [t Ht].
        destruct (get_prop_completes v "body" Hv) as [b Hb].
        rewrite (handler_with_data json_parse event w v t b)
          by (try assumption; rewrite Hd; exact Hp).
        simpl snd. rewrite emitted_displayed.
        destruct v; try reflexivity. congruence.
    + rewrite (handler_syntax_error json_parse event w d Hd Hp). simpl.
      rewrite emitted_same. reflexivity.
  - rewrite (handler_fallback json_parse event w Hd). simpl snd.
    rewrite emitted_displayed. reflexivity.
Qed.

Lemma handler_lifetimes (event : PushEvent) (w : World) :
  lifetimes_sound w -> lifetimes_sound (snd (handler event w)).
Proof.
  intros [Hn Hb].
  destruct (handler_cases json_parse event w) as [[e E] | (t & b & E)];
    rewrite E; simpl snd; [split; assumption |].
  unfold lifetimes_sound, displayed. simpl. split.
  - rewrite map_app. simpl. apply NoDup_app. split; [exact Hn |].
    split; [| apply NoDup_singleton].
    intros p Hp Hp'. apply list_elem_of_singleton in Hp'. subst p.
    apply list_elem_of_fmap in Hp as [[e' p'] [Heq Hin]]. simpl in Heq.
    rewrite Forall_forall in Hb. specialize (Hb _ Hin). simpl in Hb. lia.
  - apply Forall_app. split.
    + eapply Forall_impl; [exact Hb |]. simpl. intros ep Hlt. lia.
    + constructor; [simpl; lia | constructor].
Qed.

(** X8: the worker listens for ['push'] and for nothing else.  Once the
    script has run in a world without a listener for [type], an event of
    that type runs nothing and changes nothing. *)
Theorem other_events_ignored (type : string) (event : PushEvent) (w : World) :
  type <> "push" ->
  Forall (fun l => fst l <> type) (listeners w) ->
  dispatch json_parse type event (snd (sw_script w))
  = ([], snd (sw_script w)).
Proof.
  intros Ht Hl. unfold dispatch. simpl listeners.
  rewrite <- (app_nil_r (listeners w ++ [("push", PushCallback)])).
  rewrite dispatch_to_skip; [reflexivity |].
  apply Forall_app. split; [exact Hl |].
  constructor; [simpl; congruence | constructor].
Qed.

(** X9: once the script has run in a world that had no ['push'] listener,
    a push event runs the handler, once: one completion is reported and
    the world is the one the handler leaves. *)
Theorem push_runs_handler_once (event : PushEvent) (w : World) :
  Forall (fun l => fst l <> "push") (listeners w) ->
  dispatch json_parse "push" event (snd (sw_script w))
  = ([fst (handler event (snd (sw_script w)))],
     snd (handler event (snd (sw_script w)))).
Proof.
  intros Hl. unfold dispatch. simpl listeners.
  rewrite (dispatch_to_skip _ _ _ _ _ Hl). simpl.
  destruct (handler event _) as [c w']. reflexivity.
Qed.

(** X10: one notification for each event there is something to display
    for.  When the handler is the one listener, delivering a list of
    push events adds as many display calls to the log as the list has
    events without data or with data that reads as a JSON value other
    than [null]; the events that throw in between change nothing. *)
Theorem deliver_display_count (events : list PushEvent) (w : World) :
  listeners w = [("push", PushCallback)] ->
  length (displays (calls (deliver json_parse events w)))
  = length (displays (calls w))
    + length (List.filter (displayable json_parse) events).
Proof.
  revert w. induction events as [| event events IH]; intros w Hl; simpl.
  - lia.
  - rewrite (dispatch_single event w Hl). simpl snd.
    rewrite IH by (rewrite handler_listeners; exact Hl).
    rewrite handler_calls. unfold displays at 1.
    rewrite omap_app, length_app. fold (displays (calls w)).
    fold (displays (emitted w (snd (handler event w)))).
    rewrite handler_display_count.
    destruct (displayable json_parse event); simpl; lia.
Qed.

(** X11: the handler keeps the promises that events wait for apart: if
    they were pairwise distinct and all created already, they still are
    after the run, so the display of this event is waited for by this
    event alone. *)
Theorem handler_keeps_lifetimes_sound (event : PushEvent) (w : World) :
  lifetimes_sound w ->
  lifetimes_sound (snd (handler event w))
  /\ forall t o p,
       In (ShowNotification t o p) (emitted w (snd (handler event w))) ->
       ~ In p (map snd (extend_lifetime w)).
Proof.
  intros Hs. split; [apply handler_lifetimes, Hs |].
  destruct Hs as [_ Hb].
  destruct (handler_emitted json_parse event w) as [E | (t' & b' & _ & E)];
    rewrite E; [intros t o p [] |].
  intros t o p [H | [H | []]]; [| discriminate H].
  injection H as _ _ <-. intros Hin.
  apply in_map_iff in Hin as [[e' p'] [Heq Hin]]. simpl in Heq.
  rewrite Forall_forall in Hb. apply list_elem_of_In in Hin.
  specialize (Hb _ Hin). simpl in Hb. lia.
Qed.

(** X12: however many push events are delivered, and whatever they
    carry, no two of them wait for the same promise. *)
Theorem deliver_keeps_lifetimes_sound (events : list PushEvent) (w : World) :
  listeners w = [("push", PushCallback)] ->
  lifetimes_sound w ->
  lifetimes_sound (deliver json_parse events w).
Proof.
  revert w. induction events as [| event events IH]; intros w Hl Hs; simpl.
  - exact Hs.
  - rewrite (dispatch_single event w Hl). simpl snd.
    apply IH; [rewrite handler_listeners; exact Hl |].
    apply handler_lifetimes, Hs.
Qed.

End DeliveryFacts.

(** * The further properties on concrete messages *)

Section MoreRuns.

Import Messages Payloads.

Abbreviation run := (push_handler RefJSON.parse).

Lemma handler_null_payload_null :
  run null_payload initial_world = (Throw TypeError, initial_world)
  /\ emitted initial_world (snd (run null_payload initial_world)) = [].
Proof.
  apply (handler_null_payload RefJSON.parse null_payload initial_world
           {| bytes := "null" |}); vm_compute; reflexivity.
Defined.

Lemma handler_non_object_number :
  fst (run number_payload initial_world) = Normal tt
  /\ emitted initial_world (snd (run number_payload initial_world))
     = [ShowNotification JUndefined
          {| body := JUndefined; icon := JVal (JString "/icon.png") |} 0;
        WaitUntil 5 0].
Proof.
  apply (handler_non_object RefJSON.parse number_payload initial_world
           {| bytes := "42" |}
           (JNumber (Decimal.Decimal
                       (Decimal.Pos (Decimal.D4 (Decimal.D2 Decimal.Nil)))
                       Decimal.Nil)));
    try (vm_compute; reflexivity); [| intros props]; discriminate.
Defined.

Lemma handler_object_members_body_only :
  fst (run body_only initial_world) = Normal tt
  /\ emitted initial_world (snd (run body_only initial_world))
     = [ShowNotification JUndefined
          {| body := JVal (JString "Starts in 5 minutes");
             icon := JVal (JString "/icon.png") |} 0;
        WaitUntil 6 0].
Proof.
  assert (RefJSON.parse
            ("{" +:+ RefJSON.qt "body" +:+ ":"
                 +:+ RefJSON.qt "Starts in 5 minutes" +:+ "}")
          = Some (JObject {[ "body" := JString "Starts in 5 minutes" ]}))
    as Hp by (vm_compute; reflexivity).
  pose proof (handler_object_members RefJSON.parse body_only initial_world
                _ _ eq_refl Hp) as H.
  vm_compute in H. vm_compute. exact H.
Defined.

Lemma handler_failure_leaves_no_trace_truncated :
  snd (run truncated loaded) = loaded
  /\ run meeting (snd (run truncated loaded)) = run meeting loaded.
Proof.
  apply (handler_failure_leaves_no_trace RefJSON.parse truncated meeting
           loaded SyntaxError).
  vm_compute. reflexivity.
Defined.

Lemma handler_ignores_other_members_meeting :
  displays (emitted initial_world (snd (run meeting initial_world)))
  = displays (emitted loaded (snd (run meeting_extended loaded))).
Proof.
  refine (handler_ignores_other_members RefJSON.parse meeting meeting_extended
            initial_world loaded _ _
            {[ "title" := JString "Meeting";
               "body" := JString "Starts in 5 minutes" ]}
            {[ "icon" := JString "/other.png";
               "title" := JString "Meeting";
               "url" := JString "/m";
               "body" := JString "Starts in 5 minutes" ]}
            eq_refl _ eq_refl _ _ _);
    vm_compute; reflexivity.
Defined.

Lemma handler_waits_only_for_display_meeting :
  In (WaitUntil 1 0) (emitted initial_world (snd (run meeting initial_world)))
  /\ 1 = event_id meeting
  /\ exists t o,
       In (ShowNotification t o 0)
          (emitted initial_world (snd (run meeting initial_world))).
Proof.
  assert (In (WaitUntil 1 0)
             (emitted initial_world (snd (run meeting initial_world))))
    as H by (vm_compute; right; left; reflexivity).
  split; [exact H |].
  exact (handler_waits_only_for_display RefJSON.parse meeting initial_world
           1 0 H).
Defined.

Lemma other_events_ignored_click :
  dispatch RefJSON.parse "notificationclick" meeting loaded = ([], loaded).
Proof.
  apply (other_events_ignored RefJSON.parse "notificationclick" meeting
           initial_world); [discriminate | constructor].
Defined.

Lemma push_runs_handler_once_meeting :
  dispatch RefJSON.parse "push" meeting loaded
  = ([fst (run meeting loaded)], snd (run meeting loaded)).
Proof.
  apply (push_runs_handler_once RefJSON.parse meeting initial_world).
  constructor.
Defined.

Lemma deliver_display_count_five :
  length (displays (calls (deliver RefJSON.parse
            [meeting; truncated; empty; null_payload; number_payload]
            loaded)))
  = 3.
Proof.
  exact (deliver_display_count RefJSON.parse
           [meeting; truncated; empty; null_payload; number_payload]
           loaded eq_refl).
Defined.

Lemma handler_keeps_lifetimes_sound_meeting :
  lifetimes_sound (snd (run meeting loaded))
  /\ forall t o p,
       In (ShowNotification t o p) (emitted loaded (snd (run meeting loaded))) ->
       ~ In p (map snd (extend_lifetime loaded)).
Proof.
  apply (handler_keeps_lifetimes_sound RefJSON.parse meeting loaded).
  split; constructor.
Defined.

Lemma deliver_keeps_lifetimes_sound_five :
  lifetimes_sound
    (deliver RefJSON.parse
       [meeting; truncated; empty; null_payload; number_payload] loaded).
Proof.
  apply (deliver_keeps_lifetimes_sound RefJSON.parse
           [meeting; truncated; empty; null_payload; number_payload] loaded);
    [reflexivity | split; constructor].
Defined.

End MoreRuns.
